(** * QSDsan [Process]: stoichiometry, normalization and conservation

    A shallow embedding of [qsdsan/_process.py].  A [Process] owns the
    coefficient vector of one reaction and its rate expression; its methods
    read and rescale them.  The embedding follows the Python text method by
    method: mutating methods are computations over the object's state that
    either return or raise, and an exception leaves behind whatever the
    method had already written.

    Three collaborators live outside the module and are taken as interfaces:
    - numpy's float64 arrays ([float64], [ndarray] below);
    - sympy's expressions (class [Sympy]);
    - the component catalog and the reaction parser ([Components] and the
      arguments of [__init__]). *)

From Stdlib Require Import QArith Qcanon Qcabs.
From stdpp Require Import base option list gmap strings numbers sorting.

Open Scope string_scope.

(** ** numpy scalars

    A float64 is idealised as an exact rational, so rounding, overflow and
    the sign of zero are not represented.  The values IEEE arithmetic gives
    to a division by zero are kept, since numpy returns them (with a
    warning) where Python's own numbers would raise. *)

Inductive float64 : Type :=
| Fin (q : Qc)
| Inf (negative : bool)
| NaN.

#[global] Instance float64_eq_dec : EqDecision float64.
Proof. solve_decision. Defined.

Definition qc (n : Z) (d : positive) : Qc := Q2Qc (n # d).

Definition Qc_negative (q : Qc) : bool := bool_decide (q < 0)%Qc.

(** [-x] *)
Definition fneg (x : float64) : float64 :=
  match x with
  | Fin q => Fin (- q)%Qc
  | Inf s => Inf (negb s)
  | NaN => NaN
  end.

(** [abs(x)] *)
Definition fabs (x : float64) : float64 :=
  match x with
  | Fin q => Fin (Qcabs q)
  | Inf _ => Inf false
  | NaN => NaN
  end.

(** [x / y] on float64: no exception, whatever the divisor.  A zero
    divisor is taken as +0.0, which is what [abs] returns. *)
Definition fdiv (x y : float64) : float64 :=
  match x, y with
  | NaN, _ | _, NaN => NaN
  | Fin a, Fin b =>
      if decide (b = 0%Qc) then
        if decide (a = 0%Qc) then NaN else Inf (Qc_negative a)
      else Fin (a / b)%Qc
  | Fin _, Inf _ => Fin 0%Qc
  | Inf s, Fin b => Inf (xorb s (Qc_negative b))
  | Inf _, Inf _ => NaN
  end.

(** [x * y] *)
Definition fmul (x y : float64) : float64 :=
  match x, y with
  | NaN, _ | _, NaN => NaN
  | Fin a, Fin b => Fin (a * b)%Qc
  | Fin a, Inf s | Inf s, Fin a =>
      if decide (a = 0%Qc) then NaN else Inf (xorb s (Qc_negative a))
  | Inf s, Inf t => Inf (xorb s t)
  end.

(** [x + y] *)
Definition fadd (x y : float64) : float64 :=
  match x, y with
  | NaN, _ | _, NaN => NaN
  | Fin a, Fin b => Fin (a + b)%Qc
  | Fin _, Inf s | Inf s, Fin _ => Inf s
  | Inf s, Inf t => if decide (s = t) then Inf s else NaN
  end.

(** [x != 0] *)
Definition f_ne_zero (x : float64) : bool :=
  match x with
  | Fin q => bool_decide (q ≠ 0%Qc)
  | Inf _ | NaN => true
  end.

(** [np.isclose(x, 0.0, atol=tol)]: with a zero reference the relative term
    vanishes and the test is [|x| <= tol]; infinities and NaN are never
    close to zero. *)
Definition isclose_zero (tol : Qc) (x : float64) : bool :=
  match x with
  | Fin q => bool_decide (Qcabs q ≤ tol)%Qc
  | Inf _ | NaN => false
  end.

(** Arrays by dimension: a 0-d scalar, a vector, a matrix given by rows. *)
Inductive ndarray : Type :=
| A0 (x : float64)
| A1 (v : list float64)
| A2 (rows : list (list float64)).

(** ** Exceptions and results *)

(** What the two [RuntimeError]s of [check_conservation] say.  The message
    of the first is rendered from the list of pairs it carries. *)
Inductive runtime_msg : Type :=
| Unconserved (unconserved : list (string * float64))
| NonNumerical.

Inductive exn : Type :=
| AttributeError (name : string)
| KeyError (key : string)
| IndexError
| TypeError
| ValueError
| SyntaxError
| RuntimeError (msg : runtime_msg).

Inductive result (A : Type) : Type :=
| Ok (a : A)
| Raise (e : exn).
Arguments Ok {A} a.
Arguments Raise {A} e.

#[global] Instance result_ret : MRet result := λ A a, Ok a.
#[global] Instance result_bind : MBind result := λ A B f m,
  match m with
  | Ok a => f a
  | Raise e => Raise e
  end.
#[global] Instance result_fmap : FMap result := λ A B f m,
  match m with
  | Ok a => Ok (f a)
  | Raise e => Raise e
  end.

Definition raises {A} (m : result A) : Prop := ∃ e, m = Raise e.

(** Left fold of a fallible step, as a [for] loop that may raise. *)
Fixpoint foldlM {A B} (f : A → B → result A) (a : A) (l : list B) : result A :=
  match l with
  | [] => Ok a
  | b :: l => a' ← f a b; foldlM f a' l
  end.

(** [l[i]] on a sequence. *)
Definition getitem {A} (l : list A) (i : nat) : result A :=
  match l !! i with
  | Some x => Ok x
  | None => Raise IndexError
  end.

(** [d[k] = v] for every pair of [l] in turn: a later pair overwrites an
    earlier one with the same key. *)
Definition update_all {A} (d : gmap string A) (l : list (string * A)) : gmap string A :=
  foldl (λ d kv, <[kv.1 := kv.2]> d) d l.

(** [dict(zip(keys, values))] *)
Definition dict_zip {A} (keys : list string) (values : list A) : gmap string A :=
  update_all ∅ (zip keys values).

(** ** sympy expressions

    The operations of sympy that the module applies to expressions.
    [Float x] is the expression sympy makes of the float64 [x] when one is
    multiplied into an expression; [parse_text] is [parse_expr] on a string
    of source text, given the dictionary of local names. *)

Class Sympy : Type := {
  expr : Type;
  Symbol : string → expr;
  Integer : Z → expr;
  Float : float64 → expr;
  expr_neg : expr → expr;
  expr_mul : expr → expr → expr;
  expr_truediv : expr → expr → expr;
  expr_abs : expr → expr;
  expr_ne_zero : expr → bool;
  parse_text : string → gmap string expr → result expr;
}.

(** The two facts about sympy's automatic evaluation that are relied on:
    [-(-e)] is [e], and [e/1] is [e]. *)
Class SympyLaws (S : Sympy) : Prop := {
  expr_neg_involutive : ∀ e : expr, expr_neg (expr_neg e) = e;
  expr_truediv_one : ∀ e : expr, expr_truediv e (Integer 1) = e;
}.

(** ** The component catalog *)

(** Modelled from the spec: the catalog is thermosteam's compiled chemicals
    object, which is not part of the sources.  It is an ordered collection
    of species names ([IDs]), an index of each name ([_index]), and one
    array of per-species conversion factors for each conservable quantity
    (the attributes [i_COD], [i_N], ...; [conversion] maps the quantity to
    its array). *)
Record Components : Type := {
  IDs : list string;
  conversion : gmap string (list float64);
}.

Definition _index (cmps : Components) : gmap string nat :=
  dict_zip (IDs cmps) (seq 0 (length (IDs cmps))).

(** [cmps._index[name]] *)
Definition index_of (cmps : Components) (name : string) : result nat :=
  match _index cmps !! name with
  | Some i => Ok i
  | None => Raise (KeyError name)
  end.

(** [getattr(cmps, 'i_' + quantity)] *)
Definition getattr_i (cmps : Components) (quantity : string) : result (list float64) :=
  match conversion cmps !! quantity with
  | Some row => Ok row
  | None => Raise (AttributeError ("i_" +:+ quantity))
  end.

(** [np.vstack((arr, row))] for a 1-d [row]: the columns must agree. *)
Definition vstack (arr : ndarray) (row : list float64) : result ndarray :=
  match arr with
  | A0 _ => Raise ValueError
  | A1 r0 =>
      if decide (length r0 = length row) then Ok (A2 [r0; row]) else Raise ValueError
  | A2 rows =>
      if bool_decide (Forall (λ r, length r = length row) rows)
      then Ok (A2 (rows ++ [row])) else Raise ValueError
  end.

Definition dot (u v : list float64) : float64 :=
  foldl fadd (Fin 0%Qc) (zip_with fmul u v).

(** [ic @ v] for a 1-d [v]; [ic] is [None] when there is no array. *)
Definition matmul (ic : option ndarray) (v : list float64) : result ndarray :=
  match ic with
  | None => Raise TypeError
  | Some (A0 _) => Raise ValueError
  | Some (A1 r) =>
      if decide (length r = length v) then Ok (A0 (dot r v)) else Raise ValueError
  | Some (A2 rows) =>
      if bool_decide (Forall (λ r, length r = length v) rows)
      then Ok (A1 ((λ r, dot r v) <$> rows)) else Raise ValueError
  end.

(** Python truth value of [None] or a string. *)
Definition truthy (s : option string) : bool :=
  match s with
  | None => false
  | Some s => bool_decide (s ≠ "")
  end.

(** Python's order on strings, character by character. *)
Definition str_le (a b : string) : Prop := String.leb a b = true.

#[global] Instance str_le_dec : RelDecision str_le.
Proof. intros a b. unfold str_le. apply _. Defined.

(** [sorted(d)] on a dictionary: its keys in ascending order.  The keys
    are distinct, so the order in which the dictionary yields them does not
    show in the result. *)
Definition sorted_keys {A} (d : gmap string A) : list string :=
  merge_sort str_le (map_to_list d).*1.

(** ** The Process object *)

Section process.
Context `{sympy : Sympy}.

(** [_stoichiometry] is a numpy array of numbers or a Python list of
    expressions; the methods branch on which. *)
Inductive stoich : Type :=
| stoich_ndarray (a : list float64)
| stoich_list (l : list expr).

(** The attributes [__init__] sets.  [_rate_equation] is [None] while the
    attribute has not been assigned. *)
Record Process : Type := {
  _stoichiometry : stoich;
  _components : Components;
  _ref_component : option string;
  _conserved_for : list string;
  _parameters : gmap string expr;
  _rate_equation : option expr;
}.

(** Python values an attribute of the object can hold. *)
Inductive pyobj : Type :=
| PyNone
| PyStr (s : string)
| PyTuple (items : list string)
| PyStoich (v : stoich)
| PyComponents (c : Components)
| PyDict (d : gmap string expr)
| PyExpr (e : expr).

(** [self.<name>] on the instance dictionary: the six attributes of
    [__init__], and [AttributeError] for any other name. *)
Definition getattr (self : Process) (name : string) : result pyobj :=
  if decide (name = "_stoichiometry") then Ok (PyStoich (_stoichiometry self))
  else if decide (name = "_components") then Ok (PyComponents (_components self))
  else if decide (name = "_ref_component") then
    Ok (match _ref_component self with Some s => PyStr s | None => PyNone end)
  else if decide (name = "_conserved_for") then Ok (PyTuple (_conserved_for self))
  else if decide (name = "_parameters") then Ok (PyDict (_parameters self))
  else if decide (name = "_rate_equation") then
    match _rate_equation self with
    | Some e => Ok (PyExpr e)
    | None => Raise (AttributeError name)
    end
  else Raise (AttributeError name).

(** A tuple of quantity names, as the loop of [get_conversion_factors]
    expects it. *)
Definition as_names (o : pyobj) : result (list string) :=
  match o with
  | PyTuple items => Ok items
  | _ => Raise TypeError
  end.

(** What [get_conversion_factors] returns besides [None]. *)
Inductive factors : Type :=
| FArray (arr : ndarray)
| FMatrix (rows : list (list expr)).

(** [Matrix(arr.tolist())]: a 1-d list makes a column. *)
Definition Matrix (arr : ndarray) : list (list expr) :=
  match arr with
  | A0 x => [[Float x]]
  | A1 v => (λ x, [Float x]) <$> v
  | A2 rows => fmap (M:=list) Float <$> rows
  end.

(** Lines 45-50: the body of the [if] of [get_conversion_factors], on the
    names it iterates. *)
Definition stack_factors (cmps : Components) (first : string) (rest : list string)
    (as_matrix : bool) : result factors :=
  arr ← getattr_i cmps first;
  arr ← foldlM (λ arr c, row ← getattr_i cmps c; vstack arr row) (A1 arr) rest;
  if as_matrix then Ok (FMatrix (Matrix arr)) else Ok (FArray arr).

Definition get_conversion_factors (self : Process) (as_matrix : bool)
    : result (option factors) :=
  o ← getattr self "_conservation_for";
  conservation_for ← as_names o;
  match conservation_for with
  | first :: rest => Some <$> stack_factors (_components self) first rest as_matrix
  | [] => Ok None
  end.

(** The list comprehension of line 63, from position [i] on. *)
Fixpoint unconserved_from (materials : list string) (i : nat)
    (ic_dot_v : list float64) (conserved_arr : list bool)
    : result (list (string * float64)) :=
  match conserved_arr with
  | [] => Ok []
  | conserved :: conserved_arr =>
      if conserved then unconserved_from materials (S i) ic_dot_v conserved_arr
      else
        m ← getitem materials i;
        x ← getitem ic_dot_v i;
        tl ← unconserved_from materials (S i) ic_dot_v conserved_arr;
        Ok ((m, x) :: tl)
  end.

Definition as_array (f : option factors) : option ndarray :=
  match f with
  | Some (FArray arr) => Some arr
  | _ => None
  end.

Definition check_conservation (self : Process) (tol : Qc) : result unit :=
  match _stoichiometry self with
  | stoich_ndarray v =>
      ic ← get_conversion_factors self false;
      ic_dot_v ← matmul (as_array ic) v;
      match ic_dot_v with
      | A1 d =>
          let conserved_arr := isclose_zero tol <$> d in
          if forallb id conserved_arr then Ok ()
          else
            unconserved ← unconserved_from (_conserved_for self) 0 d conserved_arr;
            Raise (RuntimeError (Unconserved unconserved))
      | A0 x =>
          (* a 0-d result: [enumerate] of a numpy bool is a TypeError *)
          if isclose_zero tol x then Ok () else Raise TypeError
      | A2 _ => Raise ValueError
      end
  | stoich_list _ => Raise (RuntimeError NonNumerical)
  end.

(** [stoichiometry]: the view of the non-zero coefficients by name. *)
Inductive coeff : Type :=
| CNum (x : float64)
| CExpr (e : expr).

Definition coeff_ne_zero (v : coeff) : bool :=
  match v with
  | CNum x => f_ne_zero x
  | CExpr e => expr_ne_zero e
  end.

Definition coeffs (v : stoich) : list coeff :=
  match v with
  | stoich_ndarray a => CNum <$> a
  | stoich_list l => CExpr <$> l
  end.

Definition stoichiometry (self : Process) : gmap string coeff :=
  let allcmps := dict_zip (IDs (_components self)) (coeffs (_stoichiometry self)) in
  filter (λ kv, coeff_ne_zero kv.2 = true) allcmps.

Definition rate_equation (self : Process) : result expr :=
  match _rate_equation self with
  | Some e => Ok e
  | None => Raise (AttributeError "_rate_equation")
  end.

(** Mutating methods: a computation from the object's state to a result
    and the state it leaves, also when it raises. *)
Definition method (A : Type) : Type := Process → result A * Process.

#[global] Instance method_ret : MRet method := λ A a self, (Ok a, self).
#[global] Instance method_bind : MBind method := λ A B f m self,
  match m self with
  | (Ok a, self') => f a self'
  | (Raise e, self') => (Raise e, self')
  end.

(** Evaluate an expression that reads [self]. *)
Definition read {A} (f : Process → result A) : method A :=
  λ self, (f self, self).

(** Attribute assignments. *)
Definition assign_stoichiometry (v : stoich) : method () := λ self,
  (Ok (), {| _stoichiometry := v;
             _components := _components self;
             _ref_component := _ref_component self;
             _conserved_for := _conserved_for self;
             _parameters := _parameters self;
             _rate_equation := _rate_equation self |}).

Definition assign_ref_component (name : option string) : method () := λ self,
  (Ok (), {| _stoichiometry := _stoichiometry self;
             _components := _components self;
             _ref_component := name;
             _conserved_for := _conserved_for self;
             _parameters := _parameters self;
             _rate_equation := _rate_equation self |}).

Definition assign_parameters (d : gmap string expr) : method () := λ self,
  (Ok (), {| _stoichiometry := _stoichiometry self;
             _components := _components self;
             _ref_component := _ref_component self;
             _conserved_for := _conserved_for self;
             _parameters := d;
             _rate_equation := _rate_equation self |}).

Definition assign_rate_equation (e : expr) : method () := λ self,
  (Ok (), {| _stoichiometry := _stoichiometry self;
             _components := _components self;
             _ref_component := _ref_component self;
             _conserved_for := _conserved_for self;
             _parameters := _parameters self;
             _rate_equation := Some e |}).

Definition reverse : method () :=
  v ← read (λ self, Ok (_stoichiometry self));
  _ ← match v with
      | stoich_ndarray a => assign_stoichiometry (stoich_ndarray (fneg <$> a))
      | stoich_list l => assign_stoichiometry (stoich_list (expr_neg <$> l))
      end;
  r ← read rate_equation;
  assign_rate_equation (expr_neg r).

Definition _normalize_stoichiometry (new_ref : string) : method () :=
  v ← read (λ self, Ok (_stoichiometry self));
  i ← read (λ self, index_of (_components self) new_ref);
  match v with
  | stoich_ndarray a =>
      c ← read (λ _, getitem a i);
      let factor := fabs c in
      assign_stoichiometry (stoich_ndarray ((λ v, fdiv v factor) <$> a))
  | stoich_list l =>
      c ← read (λ _, getitem l i);
      let factor := expr_abs c in
      assign_stoichiometry (stoich_list ((λ v, expr_truediv v factor) <$> l))
  end.

Definition _normalize_rate_eq (new_ref : string) : method () :=
  v ← read (λ self, Ok (_stoichiometry self));
  i ← read (λ self, index_of (_components self) new_ref);
  factor ← read (λ _, match v with
                      | stoich_ndarray a => Float <$> getitem a i
                      | stoich_list l => getitem l i
                      end);
  r ← read rate_equation;
  assign_rate_equation (expr_mul r factor).

(** The setter of the [ref_component] property. *)
Definition ref_component_setter (ref_cmp : option string) : method () :=
  match ref_cmp with
  | Some new_ref =>
      if truthy ref_cmp then
        _ ← assign_ref_component ref_cmp;
        _ ← _normalize_stoichiometry new_ref;
        _normalize_rate_eq new_ref
      else mret ()
  | None => mret ()
  end.

(** The state of [self] after a reassignment that went through: the new
    name, the new vector, the new rate. *)
Definition reassigned (self : Process) (new_ref : string) (v : stoich) (r : expr)
    : Process :=
  {| _stoichiometry := v;
     _components := _components self;
     _ref_component := Some new_ref;
     _conserved_for := _conserved_for self;
     _parameters := _parameters self;
     _rate_equation := Some r |}.

(** The coefficient at position [i] has magnitude one: [abs] of it is the
    number 1. *)
Definition unit_magnitude (v : stoich) (i : nat) : Prop :=
  match v with
  | stoich_ndarray a => ∃ c, a !! i = Some c ∧ fabs c = Fin 1%Qc
  | stoich_list l => ∃ c, l !! i = Some c ∧ expr_abs c = Integer 1
  end.

(** A species serves as the reference component when it is the one named
    by [_ref_component] and the vector is normalized on it. *)
Definition serves_as_reference (self : Process) (name : string) : Prop :=
  _ref_component self = Some name ∧
  ∃ i, index_of (_components self) name = Ok i ∧
       unit_magnitude (_stoichiometry self) i.

(** [{p: symbols(p) for p in names}], on top of the dictionary [d]. *)
Definition bind_symbols (d : gmap string expr) (names : list string) : gmap string expr :=
  foldl (λ d p, <[p := Symbol p]> d) d names.

Definition append_parameters (new_pars : list string) : method () :=
  self ← read Ok;
  assign_parameters (bind_symbols (_parameters self) new_pars).

(** sympy's [parse_expr]: it strips its argument as a string, which [None]
    is not, and the empty text is not an expression. *)
Definition parse_expr (eq : option string) (local_dict : gmap string expr) : result expr :=
  match eq with
  | None => Raise (AttributeError "strip")
  | Some text => if decide (text = "") then Raise SyntaxError else parse_text text local_dict
  end.

Definition _parse_rate_eq (eq : option string) : method () :=
  self ← read Ok;
  let cmpconc_symbols := bind_symbols ∅ (IDs (_components self)) in
  (* [{**cmpconc_symbols, **self._parameters}]: the parameters win *)
  e ← read (λ _, parse_expr eq (_parameters self ∪ cmpconc_symbols));
  assign_rate_equation e.

(** The [conserved_for] property and its setter. *)
Definition conserved_for (self : Process) : list string := _conserved_for self.

Definition conserved_for_setter (materials : list string) : method () := λ self,
  (Ok (), {| _stoichiometry := _stoichiometry self;
             _components := _components self;
             _ref_component := _ref_component self;
             _conserved_for := materials;
             _parameters := _parameters self;
             _rate_equation := _rate_equation self |}).

(** The [parameters] property: [sorted(self._parameters)]. *)
Definition parameters (self : Process) : list string :=
  sorted_keys (_parameters self).

(** [set_parameters] is [pass]. *)
Definition set_parameters : method () := mret ().

(** A call of one of the mutating methods, and the state a sequence of
    calls leaves when the caller goes on after a call that raised. *)
Inductive call : Type :=
| call_reverse
| call_ref_component (ref_cmp : option string)
| call_conserved_for (materials : list string)
| call_append_parameters (new_pars : list string)
| call_set_parameters.

Definition perform (c : call) : method () :=
  match c with
  | call_reverse => reverse
  | call_ref_component ref_cmp => ref_component_setter ref_cmp
  | call_conserved_for materials => conserved_for_setter materials
  | call_append_parameters new_pars => append_parameters new_pars
  | call_set_parameters => set_parameters
  end.

Definition after (calls : list call) (self : Process) : Process :=
  foldl (λ self c, (perform c self).2) self calls.

(** Two vectors of the same kind and length. *)
Definition same_shape (v v' : stoich) : Prop :=
  match v, v' with
  | stoich_ndarray a, stoich_ndarray a' => length a = length a'
  | stoich_list l, stoich_list l' => length l = length l'
  | _, _ => False
  end.


(** The collaborators of the constructor: [_load_chemicals] of the
    [chemicals_user] decorator and the reaction parser of [_parse]. *)
Variable _load_chemicals : option Components → result Components.
Variable get_stoichiometric_coeff :
  string → option string → Components → list string → gmap string expr → result stoich.

(** [Process(reaction, ref_component, rate_equation, components,
    conserved_for, parameters)].  The caller gets the object only if no
    step raises. *)
Definition __init__ (reaction : string) (ref_component : option string)
    (rate_equation : option string) (components : option Components)
    (conserved_for : list string) (parameters : option (list string))
    : result Process :=
  cmps ← _load_chemicals components;
  params ← match parameters with
           | Some names => Ok (bind_symbols ∅ names)
           | None => Raise TypeError
           end;
  v ← get_stoichiometric_coeff reaction ref_component cmps conserved_for params;
  let self := {| _stoichiometry := v;
                 _components := cmps;
                 _ref_component := ref_component;
                 _conserved_for := conserved_for;
                 _parameters := params;
                 _rate_equation := None |} in
  match _parse_rate_eq rate_equation self with
  | (Ok _, self) => Ok self
  | (Raise e, _) => Raise e
  end.

End process.

(** ** A model of the sympy interface

    Expressions as monomials: a numeric coefficient times a formal product
    of atoms.  Numbers are monomials with no atom; negation and scaling act
    on the coefficient, as sympy's automatic evaluation of products does.
    The model serves to run the methods on concrete processes. *)

Module Monomial.

Inductive mono : Type :=
| Mono (c : float64) (atoms : list atom)
with atom : Type :=
| ASymbol (name : string)
| AAbs (m : mono)
| AInv (m : mono).

Definition neg (e : mono) : mono :=
  match e with Mono c a => Mono (fneg c) a end.

Definition mul (e f : mono) : mono :=
  match e, f with Mono c a, Mono d b => Mono (fmul c d) (a ++ b) end.

Definition truediv (e f : mono) : mono :=
  match e, f with
  | Mono c a, Mono d [] => Mono (fdiv c d) a
  | Mono c a, Mono _ (_ :: _) => Mono c (a ++ [AInv f])
  end.

Definition abs (e : mono) : mono :=
  match e with
  | Mono c [] => Mono (fabs c) []
  | Mono c a => Mono (fabs c) [AAbs (Mono (Fin 1%Qc) a)]
  end.

Definition ne_zero (e : mono) : bool :=
  match e with Mono c _ => f_ne_zero c end.

Definition symbol (name : string) : mono := Mono (Fin 1%Qc) [ASymbol name].

(** A text is read as a single name: its binding among the local names,
    or else a new symbol. *)
Definition parse (text : string) (local_dict : gmap string mono) : result mono :=
  match local_dict !! text with
  | Some e => Ok e
  | None => Ok (symbol text)
  end.

#[global] Instance sympy : Sympy := {|
  expr := mono;
  Symbol := symbol;
  Integer := λ z, Mono (Fin (Q2Qc (inject_Z z))) [];
  Float := λ x, Mono x [];
  expr_neg := neg;
  expr_mul := mul;
  expr_truediv := truediv;
  expr_abs := abs;
  expr_ne_zero := ne_zero;
  parse_text := parse;
|}.

End Monomial.

(** ** Sample processes over the model *)

Module Sample.
Import Monomial.

(** Two species, with their COD and N contents. *)
Definition cmps : Components := {|
  IDs := ["S_O2"; "S_NH4"];
  conversion := <["COD" := [Fin (qc (-1) 1); Fin (qc 0 1)]]>
                (<["N" := [Fin (qc 0 1); Fin (qc 1 1)]]> ∅);
|}.

Definition k : mono := symbol "k".

(** A numeric process, normalized on S_O2: for 1 of S_O2 produced, 2 of
    S_NH4 are consumed. *)
Definition numeric : Process := {|
  _stoichiometry := stoich_ndarray [Fin (qc 1 1); Fin (qc (-2) 1)];
  _components := cmps;
  _ref_component := Some "S_O2";
  _conserved_for := ["COD"; "N"];
  _parameters := bind_symbols ∅ ["k"];
  _rate_equation := Some k;
|}.

(** A numeric process already normalized on S_NH4, which it consumes. *)
Definition normalized : Process := {|
  _stoichiometry := stoich_ndarray [Fin (qc 1 2); Fin (qc (-1) 1)];
  _components := cmps;
  _ref_component := Some "S_NH4";
  _conserved_for := ["COD"; "N"];
  _parameters := bind_symbols ∅ ["k"];
  _rate_equation := Some k;
|}.

(** A numeric process in which S_NH4 does not take part. *)
Definition oxygen_only : Process := {|
  _stoichiometry := stoich_ndarray [Fin (qc 1 1); Fin (qc 0 1)];
  _components := cmps;
  _ref_component := Some "S_O2";
  _conserved_for := ["COD"];
  _parameters := bind_symbols ∅ ["k"];
  _rate_equation := Some k;
|}.

(** A process with a coefficient still in terms of the parameter [k]. *)
Definition symbolic : Process := {|
  _stoichiometry := stoich_list [Integer 1; neg k];
  _components := cmps;
  _ref_component := Some "S_O2";
  _conserved_for := ["COD"; "N"];
  _parameters := bind_symbols ∅ ["k"];
  _rate_equation := Some k;
|}.

(** Collaborators for running the constructor on a sample: a loader that
    passes the given catalog through, and in place of the reaction parser
    the coefficients of [numeric], whatever the reaction text. *)
Definition load (components : option Components) : result Components :=
  match components with
  | Some c => Ok c
  | None => Raise (AttributeError "chemicals")
  end.

Definition parser (reaction : string) (ref_component : option string)
    (cmps : Components) (conserved_for : list string)
    (parameters : gmap string mono) : result stoich :=
  Ok (stoich_ndarray [Fin (qc 1 1); Fin (qc (-2) 1)]).

End Sample.


(** * Properties *)

(** ** Arithmetic of the scalars *)


Lemma Qcabs_eq_zero (c : Qc) : Qcabs c = 0%Qc → c = 0%Qc.
Proof. apply Qcabs_null. Qed.

Lemma Qc_negative_spec (c : Qc) :
  if Qc_negative c then (c < 0)%Qc else (0 ≤ c)%Qc.
Proof.
  unfold Qc_negative. case_bool_decide as Hc; [done|].
  by apply Qcnot_lt_le.
Qed.

(** A non-zero rational over its magnitude is its sign. *)
Lemma Qc_div_abs (c : Qc) :
  c ≠ 0%Qc → (c / Qcabs c)%Qc = if Qc_negative c then (- 1)%Qc else 1%Qc.
Proof.
  intros Hc. pose proof (Qc_negative_spec c) as Hs.
  destruct (Qc_negative c).
  - rewrite Qcabs_neg by (by apply Qclt_le_weak). field.
    intros H. apply Hc. rewrite <- (Qcopp_involutive c), H.
    by apply Qc_is_canon.
  - rewrite Qcabs_pos by done. by field.
Qed.

Lemma Qcabs_sign (b : bool) : Qcabs (if b then (- 1)%Qc else 1%Qc) = 1%Qc.
Proof. destruct b; apply Qc_is_canon; reflexivity. Qed.

Lemma fneg_involutive (x : float64) : fneg (fneg x) = x.
Proof.
  destruct x as [q|s|]; simpl; [|by rewrite negb_involutive|done].
  by rewrite Qcopp_involutive.
Qed.

Lemma fdiv_one (x : float64) : fdiv x (Fin 1%Qc) = x.
Proof.
  destruct x as [q|s|]; [|by destruct s|done].
  unfold fdiv. case_decide as H1; [discriminate H1|].
  f_equal. by field.
Qed.


(** Dividing a finite non-zero number by its own magnitude. *)
Lemma fdiv_fabs (c : Qc) :
  c ≠ 0%Qc →
  fdiv (Fin c) (fabs (Fin c)) = Fin (if Qc_negative c then (- 1)%Qc else 1%Qc).
Proof.
  intros Hc. simpl. case_decide as Ha.
  - by apply Qcabs_eq_zero in Ha.
  - by rewrite Qc_div_abs.
Qed.

Lemma f_ne_zero_false (x : float64) : f_ne_zero x = false ↔ x = Fin 0%Qc.
Proof.
  destruct x as [q|s|]; simpl; [|done..].
  rewrite bool_decide_eq_false. split.
  - intros Hq. f_equal. by destruct (decide (q = 0%Qc)).
  - intros [= ->]. by intros [].
Qed.

(** ** Dictionaries built in a loop *)

Section dictionaries.
Context {A : Type}.
Implicit Types (d : gmap string A) (l : list (string * A)).

Lemma update_all_notin d l k :
  k ∉ l.*1 → update_all d l !! k = d !! k.
Proof.
  revert d. induction l as [|[k' v'] l IH]; intros d Hk; [done|].
  simpl in *. apply not_elem_of_cons in Hk as [Hne Hk].
  rewrite IH by done. by rewrite lookup_insert_ne.
Qed.

(** Every binding comes from a pair of the list or from the start. *)
Lemma update_all_lookup_Some d l k v :
  update_all d l !! k = Some v →
  (∃ i, l !! i = Some (k, v)) ∨ d !! k = Some v.
Proof.
  revert d. induction l as [|[k' v'] l IH]; intros d Hl; [by right|].
  simpl in Hl. apply IH in Hl as [[i Hi]|Hl].
  - left. by exists (S i).
  - destruct (decide (k' = k)) as [->|Hne].
    + rewrite lookup_insert_eq in Hl. injection Hl as ->. left. by exists 0.
    + rewrite lookup_insert_ne in Hl by done. by right.
Qed.

(** With distinct keys, every pair of the list is a binding. *)
Lemma update_all_lookup_NoDup d l i k v :
  NoDup l.*1 → l !! i = Some (k, v) → update_all d l !! k = Some v.
Proof.
  revert d i. induction l as [|[k' v'] l IH]; intros d i Hnd Hi; [done|].
  simpl in Hnd. apply list.NoDup_cons in Hnd as [Hk' Hnd].
  destruct i as [|i]; simpl in *.
  - injection Hi as -> ->. rewrite update_all_notin by done.
    apply lookup_insert_eq.
  - by eapply IH.
Qed.

Lemma zip_lookup_Some (ks : list string) (vs : list A) i k v :
  zip ks vs !! i = Some (k, v) ↔ ks !! i = Some k ∧ vs !! i = Some v.
Proof.
  rewrite lookup_zip_with_Some. split.
  - intros (k' & v' & [= -> ->] & ? & ?). done.
  - intros [? ?]. by exists k, v.
Qed.

Lemma NoDup_zip_fst (ks : list string) (vs : list A) :
  NoDup ks → NoDup (zip ks vs).*1.
Proof.
  revert vs. induction ks as [|k ks IH]; intros vs Hnd; [constructor|].
  apply list.NoDup_cons in Hnd as [Hk Hnd].
  destruct vs as [|v vs]; simpl; [constructor|].
  apply list.NoDup_cons. split; [|by apply IH].
  intros Hin. apply Hk. apply list_elem_of_fmap in Hin as [[k' v'] [-> Hin]].
  apply list_elem_of_lookup in Hin as [i Hi].
  apply zip_lookup_Some in Hi as [Hi _].
  simpl. apply list_elem_of_lookup. by exists i.
Qed.

Lemma dict_zip_lookup_Some (ks : list string) (vs : list A) k v :
  dict_zip ks vs !! k = Some v → ∃ i, ks !! i = Some k ∧ vs !! i = Some v.
Proof.
  intros Hl. apply update_all_lookup_Some in Hl as [[i Hi]|Hl].
  - exists i. by apply zip_lookup_Some.
  - by rewrite lookup_empty in Hl.
Qed.

Lemma dict_zip_lookup_NoDup (ks : list string) (vs : list A) i k v :
  NoDup ks → ks !! i = Some k → vs !! i = Some v →
  dict_zip ks vs !! k = Some v.
Proof.
  intros Hnd Hk Hv. apply update_all_lookup_NoDup with i.
  - by apply NoDup_zip_fst.
  - by apply zip_lookup_Some.
Qed.

End dictionaries.

(** ** The methods of Process *)

Section process_properties.
Context `{sympy : Sympy}.
Implicit Types (self : Process) (s : string) (a : list float64) (l : list expr).

Ltac run_method :=
  unfold ref_component_setter, _normalize_stoichiometry, _normalize_rate_eq,
    reverse, append_parameters, _parse_rate_eq, assign_stoichiometry,
    assign_ref_component, assign_rate_equation, assign_parameters,
    rate_equation, read, getitem, mbind, method_bind, mret, method_ret;
  cbn [fst snd _stoichiometry _components _ref_component _conserved_for
       _parameters _rate_equation truthy].

Lemma setter_ndarray self s i a c r :
  s ≠ "" →
  index_of (_components self) s = Ok i →
  _stoichiometry self = stoich_ndarray a →
  a !! i = Some c →
  _rate_equation self = Some r →
  ref_component_setter (Some s) self =
    (Ok (), reassigned self s
              (stoich_ndarray ((λ v, fdiv v (fabs c)) <$> a))
              (expr_mul r (Float (fdiv c (fabs c))))).
Proof.
  intros Hs Hi Ha Hc Hr. run_method.
  rewrite bool_decide_eq_true_2 by done.
  rewrite Hi, Ha, Hc, Hr. cbn.
  rewrite Hi, list_lookup_fmap, Hc. done.
Qed.

Lemma setter_list self s i l c r :
  s ≠ "" →
  index_of (_components self) s = Ok i →
  _stoichiometry self = stoich_list l →
  l !! i = Some c →
  _rate_equation self = Some r →
  ref_component_setter (Some s) self =
    (Ok (), reassigned self s
              (stoich_list ((λ v, expr_truediv v (expr_abs c)) <$> l))
              (expr_mul r (expr_truediv c (expr_abs c)))).
Proof.
  intros Hs Hi Hl Hc Hr. run_method.
  rewrite bool_decide_eq_true_2 by done.
  rewrite Hi, Hl, Hc, Hr. cbn.
  rewrite Hi, list_lookup_fmap, Hc. done.
Qed.

(** On a finite non-zero reference coefficient [c] the divisor is [|c|]
    and the coefficient read back for the rate is the sign of [c]. *)
Lemma setter_ndarray_nonzero self s i a c r :
  s ≠ "" →
  index_of (_components self) s = Ok i →
  _rate_equation self = Some r →
  _stoichiometry self = stoich_ndarray a →
  a !! i = Some (Fin c) → c ≠ 0%Qc →
  let sign := Fin (if Qc_negative c then (- 1)%Qc else 1%Qc) in
  let a' := (λ v, fdiv v (Fin (Qcabs c))) <$> a in
  ref_component_setter (Some s) self =
    (Ok (), reassigned self s (stoich_ndarray a') (expr_mul r (Float sign)))
  ∧ a' !! i = Some sign
  ∧ fabs sign = Fin 1%Qc.
Proof.
  intros Hs Hi Hr Ha Hc Hc0. cbv zeta.
  rewrite (setter_ndarray self s i a (Fin c) r) by done.
  rewrite fdiv_fabs by done. split_and!.
  - done.
  - rewrite list_lookup_fmap, Hc. cbn [fmap option_fmap option_map].
    f_equal. exact (fdiv_fabs c Hc0).
  - simpl. by rewrite Qcabs_sign.
Qed.

(** A reassignment that goes through makes the new species serve as the
    reference. *)
Lemma setter_establishes_reference self s i a c r :
  s ≠ "" →
  index_of (_components self) s = Ok i →
  _rate_equation self = Some r →
  _stoichiometry self = stoich_ndarray a →
  a !! i = Some (Fin c) → c ≠ 0%Qc →
  serves_as_reference (ref_component_setter (Some s) self).2 s.
Proof.
  intros Hs Hi Hr Ha Hc Hc0.
  destruct (setter_ndarray_nonzero self s i a c r) as (-> & Hi' & Hone);
    try done.
  split; [done|]. exists i. split; [done|]. cbn. eauto.
Qed.

(** C1 (amended).  Assigning [ref_component = s], where [s] has the finite
    non-zero coefficient [c] in a numeric stoichiometry, divides every
    coefficient by [|c|] and multiplies the rate equation by the coefficient
    of [s] read after the division, which is the sign of [c] (1 or -1); the
    reference coefficient then has magnitude exactly 1.  In a symbolic
    stoichiometry every entry is divided by [Abs(c)] and the rate equation
    is multiplied by [c/Abs(c)]. *)
Theorem ref_component_setter_normalizes self s i r :
  s ≠ "" →
  index_of (_components self) s = Ok i →
  _rate_equation self = Some r →
  (∀ a c,
     _stoichiometry self = stoich_ndarray a → a !! i = Some (Fin c) → c ≠ 0%Qc →
     let sign := Fin (if Qc_negative c then (- 1)%Qc else 1%Qc) in
     let a' := (λ v, fdiv v (Fin (Qcabs c))) <$> a in
     ref_component_setter (Some s) self =
       (Ok (), reassigned self s (stoich_ndarray a') (expr_mul r (Float sign)))
     ∧ a' !! i = Some sign
     ∧ fabs sign = Fin 1%Qc)
  ∧
  (∀ l c,
     _stoichiometry self = stoich_list l → l !! i = Some c →
     let l' := (λ v, expr_truediv v (expr_abs c)) <$> l in
     ref_component_setter (Some s) self =
       (Ok (), reassigned self s (stoich_list l')
                 (expr_mul r (expr_truediv c (expr_abs c))))).
Proof.
  intros Hs Hi Hr. split.
  - intros a c Ha Hc Hc0. by apply setter_ndarray_nonzero.
  - intros l c Hl Hc. by apply (setter_list self s i).
Qed.

Lemma fmap_involutive {A} (f : A → A) (xs : list A) :
  (∀ x, f (f x) = x) → f <$> (f <$> xs) = xs.
Proof.
  intros Hf. induction xs as [|x xs IH]; [done|].
  cbn. by rewrite Hf, IH.
Qed.

Lemma fmap_fixed {A} (f : A → A) (xs : list A) :
  (∀ x, f x = x) → f <$> xs = xs.
Proof.
  intros Hf. induction xs as [|x xs IH]; [done|].
  cbn. by rewrite Hf, IH.
Qed.


(** C9.  When [s] already serves as the reference component, assigning
    [ref_component = s] leaves the stoichiometry vector as it is: every
    entry is divided by 1. *)
Theorem ref_component_setter_same_reference `{!SympyLaws sympy} self s :
  serves_as_reference self s →
  _stoichiometry (ref_component_setter (Some s) self).2 = _stoichiometry self.
Proof.
  intros (_ & i & Hi & Hmag). run_method.
  case_bool_decide as Hs; [|done].
  rewrite Hi. destruct (_stoichiometry self) as [a|l] eqn:Hv; cbn in Hmag.
  - destruct Hmag as (c & Hc & Hone). rewrite Hc. cbn. rewrite Hi, Hone.
    rewrite (fmap_fixed _ a) by apply fdiv_one.
    rewrite Hc. cbn. by destruct (_rate_equation self).
  - destruct Hmag as (c & Hc & Hone). rewrite Hc. cbn. rewrite Hi, Hone.
    rewrite (fmap_fixed _ l) by apply expr_truediv_one.
    rewrite Hc. cbn. by destruct (_rate_equation self).
Qed.

(** C10.  Assigning [None] or the empty string to [ref_component] returns
    without raising and leaves the whole state, the reference name, the
    stoichiometry vector and the rate equation, as it was. *)
Theorem ref_component_setter_falsy self :
  ref_component_setter None self = (Ok (), self) ∧
  ref_component_setter (Some "") self = (Ok (), self).
Proof. split; reflexivity. Qed.

(** C5.  On a process with a rate equation, [reverse(); reverse()] returns
    without raising and restores the stoichiometry vector and the rate
    equation: the state is the original one. *)
Theorem reverse_twice `{!SympyLaws sympy} self :
  is_Some (_rate_equation self) →
  (reverse ≫= λ _, reverse) self = (Ok (), self).
Proof.
  destruct self as [v cmps ref cf params rate]. intros [r Hr].
  cbn in Hr. subst rate. run_method.
  destruct v as [a|l]; cbn.
  - by rewrite (fmap_involutive fneg a fneg_involutive), expr_neg_involutive.
  - by rewrite (fmap_involutive expr_neg l expr_neg_involutive),
      expr_neg_involutive.
Qed.

(** [reverse] on its own negates every coefficient and the rate. *)
Lemma reverse_once self r :
  _rate_equation self = Some r →
  reverse self =
    (Ok (), {| _stoichiometry :=
                 match _stoichiometry self with
                 | stoich_ndarray a => stoich_ndarray (fneg <$> a)
                 | stoich_list l => stoich_list (expr_neg <$> l)
                 end;
               _components := _components self;
               _ref_component := _ref_component self;
               _conserved_for := _conserved_for self;
               _parameters := _parameters self;
               _rate_equation := Some (expr_neg r) |}).
Proof.
  intros Hr. run_method. destruct (_stoichiometry self); cbn; by rewrite Hr.
Qed.

(** C8.  The [stoichiometry] property has no entry whose value is zero,
    every entry is the coefficient of the species it is filed under, and,
    the names of the catalog being distinct, every species with a non-zero
    coefficient in the dense vector has its entry (one, as keys of a
    dictionary are unique). *)
Theorem stoichiometry_sparse_view self :
  NoDup (IDs (_components self)) →
  (∀ k v, stoichiometry self !! k = Some v →
     coeff_ne_zero v = true ∧ v ≠ CNum (Fin 0%Qc) ∧
     ∃ i, IDs (_components self) !! i = Some k ∧
          coeffs (_stoichiometry self) !! i = Some v)
  ∧
  (∀ i k v,
     IDs (_components self) !! i = Some k →
     coeffs (_stoichiometry self) !! i = Some v →
     coeff_ne_zero v = true →
     stoichiometry self !! k = Some v).
Proof.
  intros Hnd. unfold stoichiometry. split.
  - intros k v Hl. apply map_lookup_filter_Some in Hl as [Hl Hnz].
    cbn in Hnz. split_and!.
    + done.
    + intros ->. cbn in Hnz. apply bool_decide_eq_true_1 in Hnz. by apply Hnz.
    + by apply dict_zip_lookup_Some.
  - intros i k v Hk Hv Hnz. apply map_lookup_filter_Some. split; [|done].
    by apply dict_zip_lookup_NoDup with i.
Qed.



(** A successful construction always leaves a rate equation behind. *)
Lemma init_sets_rate_equation
    (load : option Components → result Components)
    (parser : string → option string → Components → list string →
              gmap string expr → result stoich)
    reaction ref rate components conserved_for parameters self :
  __init__ load parser reaction ref rate components conserved_for parameters = Ok self →
  ∃ text e, rate = Some text ∧ text ≠ "" ∧ _rate_equation self = Some e.
Proof.
  unfold __init__. destruct (load components) as [cmps|]; [|done]. cbn.
  destruct parameters as [names|]; [|done]. cbn.
  destruct (parser _ _ _ _ _) as [v|]; [|done]. cbn.
  run_method. unfold parse_expr. destruct rate as [text|]; [|done].
  case_decide as Htext; [done|].
  destruct (parse_text _ _) as [e|]; [|done].
  intros [= <-]. by exists text, e.
Qed.

(** C7.  Construction with the rate-equation text [None] or empty raises,
    whatever the other arguments and the collaborators are; no rate-less
    process is returned. *)
Theorem init_without_rate_equation_raises
    (load : option Components → result Components)
    (parser : string → option string → Components → list string →
              gmap string expr → result stoich)
    reaction ref components conserved_for parameters :
  raises (__init__ load parser reaction ref None components conserved_for parameters) ∧
  raises (__init__ load parser reaction ref (Some "") components conserved_for parameters).
Proof.
  split.
  - destruct (__init__ load parser reaction ref None components conserved_for
                parameters) as [self|e] eqn:Hinit; [|by exists e].
    by apply init_sets_rate_equation in Hinit as (? & ? & ? & _).
  - destruct (__init__ load parser reaction ref (Some "") components conserved_for
                parameters) as [self|e] eqn:Hinit; [|by exists e].
    by apply init_sets_rate_equation in Hinit as (? & ? & [= <-] & ? & _).
Qed.

(** C2.  [get_conversion_factors] reads the attribute [_conservation_for],
    which no method assigns: every call raises [AttributeError], with
    conserved quantities or without, as an array or as a matrix. *)
Theorem get_conversion_factors_raises self as_matrix :
  get_conversion_factors self as_matrix = Raise (AttributeError "_conservation_for").
Proof. reflexivity. Qed.

(** C3.  [check_conservation] raises in every case: the [RuntimeError] for
    non-numerical coefficients on a list, and on an array the
    [AttributeError] of [get_conversion_factors], before any product is
    taken. *)
Theorem check_conservation_outcome self tol :
  check_conservation self tol =
    match _stoichiometry self with
    | stoich_ndarray _ => Raise (AttributeError "_conservation_for")
    | stoich_list _ => Raise (RuntimeError NonNumerical)
    end.
Proof. unfold check_conservation. by destruct (_stoichiometry self). Qed.

End process_properties.

(** ** The monomial model satisfies the laws *)

#[global] Instance monomial_laws : SympyLaws Monomial.sympy.
Proof.
  split.
  - intros [c atoms]. cbn. by rewrite fneg_involutive.
  - intros [c atoms]. cbn. f_equal. apply fdiv_one.
Qed.

(** ** The methods on the sample processes *)

(** The reassignment of [numeric] to S_NH4, whose coefficient is -2. *)
Lemma ref_component_setter_normalizes_witness :
  ref_component_setter (Some "S_NH4") Sample.numeric =
    (Ok (), reassigned Sample.numeric "S_NH4"
              (stoich_ndarray
                 ((λ v, fdiv v (Fin (Qcabs (qc (-2) 1))))
                    <$> [Fin (qc 1 1); Fin (qc (-2) 1)]))
              (expr_mul Sample.k
                 (Float (Fin (if Qc_negative (qc (-2) 1) then (- 1)%Qc else 1%Qc))))).
Proof.
  refine (proj1 (proj1 (ref_component_setter_normalizes
            Sample.numeric "S_NH4" 1 Sample.k _ _ _) _ (qc (-2) 1) _ _ _)).
  - discriminate.
  - vm_compute. reflexivity.
  - reflexivity.
  - reflexivity.
  - reflexivity.
  - discriminate.
Defined.

(** C1, as stated, fails: S_NH4 has coefficient -2 in [numeric], and after
    the assignment the rate [k] has been multiplied by -1, not by -2. *)
Lemma setter_scales_rate_by_sign_not_coefficient :
  getitem [Fin (qc 1 1); Fin (qc (-2) 1)] 1 = Ok (Fin (qc (-2) 1)) ∧
  _stoichiometry Sample.numeric = stoich_ndarray [Fin (qc 1 1); Fin (qc (-2) 1)] ∧
  index_of (_components Sample.numeric) "S_NH4" = Ok 1 ∧
  _rate_equation Sample.numeric = Some Sample.k ∧
  _rate_equation (ref_component_setter (Some "S_NH4") Sample.numeric).2
    = Some (expr_mul Sample.k (Float (Fin (qc (-1) 1)))) ∧
  _rate_equation (ref_component_setter (Some "S_NH4") Sample.numeric).2
    ≠ Some (expr_mul Sample.k (Float (Fin (qc (-2) 1)))).
Proof.
  split_and!; try (vm_compute; reflexivity).
  vm_compute. discriminate.
Qed.



(** S_NH4 serves as the reference of [normalized]; assigning it again
    changes no coefficient. *)
Lemma ref_component_setter_same_reference_witness :
  serves_as_reference Sample.normalized "S_NH4" ∧
  _stoichiometry (ref_component_setter (Some "S_NH4") Sample.normalized).2
    = _stoichiometry Sample.normalized.
Proof.
  assert (Href : serves_as_reference Sample.normalized "S_NH4").
  { split; [reflexivity|]. exists 1. split; [vm_compute; reflexivity|].
    exists (Fin (qc (-1) 1)). split; [reflexivity|].
    cbn. f_equal. apply Qc_is_canon. reflexivity. }
  split; [exact Href|].
  exact (ref_component_setter_same_reference Sample.normalized "S_NH4" Href).
Defined.

(** Reversing [numeric] twice. *)
Lemma reverse_twice_witness :
  (reverse ≫= λ _, reverse) Sample.numeric = (Ok (), Sample.numeric).
Proof.
  apply (reverse_twice Sample.numeric). exists Sample.k. reflexivity.
Defined.

(** The view of [oxygen_only] files the coefficient 1 under S_O2. *)
Lemma stoichiometry_sparse_view_witness :
  NoDup (IDs (_components Sample.oxygen_only)) ∧
  stoichiometry Sample.oxygen_only !! "S_O2" = Some (CNum (Fin (qc 1 1))).
Proof.
  assert (Hnd : NoDup (IDs (_components Sample.oxygen_only))).
  { apply (bool_decide_unpack _). vm_compute. reflexivity. }
  split; [exact Hnd|].
  refine (proj2 (stoichiometry_sparse_view Sample.oxygen_only Hnd) 0 _ _ _ _ _);
    reflexivity.
Defined.



(** The failing inputs of C2, C3 and C7. *)

Example get_conversion_factors_of_numeric :
  _conserved_for Sample.numeric = ["COD"; "N"] ∧
  get_conversion_factors Sample.numeric false
    = Raise (AttributeError "_conservation_for").
Proof. split; reflexivity. Qed.

(** What lines 45-50 stack for the quantities of [numeric], had they been
    reached; for a single quantity the result is a 1-d array. *)
Example stack_factors_of_numeric :
  stack_factors Sample.cmps "COD" ["N"] false =
    Ok (FArray (A2 [[Fin (qc (-1) 1); Fin (qc 0 1)];
                    [Fin (qc 0 1); Fin (qc 1 1)]])) ∧
  stack_factors Sample.cmps "COD" [] false =
    Ok (FArray (A1 [Fin (qc (-1) 1); Fin (qc 0 1)])).
Proof. split; vm_compute; reflexivity. Qed.

(** [numeric] conserves neither COD nor N (the products are -1 and -2),
    and the check stops at the attribute lookup. *)
Example check_conservation_of_numeric :
  matmul (Some (A2 [[Fin (qc (-1) 1); Fin (qc 0 1)];
                    [Fin (qc 0 1); Fin (qc 1 1)]]))
         [Fin (qc 1 1); Fin (qc (-2) 1)]
    = Ok (A1 [Fin (qc (-1) 1); Fin (qc (-2) 1)]) ∧
  isclose_zero (qc 1 100000000) <$> [Fin (qc (-1) 1); Fin (qc (-2) 1)]
    = [false; false] ∧
  check_conservation Sample.numeric (qc 1 100000000)
    = Raise (AttributeError "_conservation_for").
Proof.
  split_and!.
  - cbn. repeat f_equal; apply Qc_is_canon; reflexivity.
  - vm_compute. reflexivity.
  - reflexivity.
Qed.

Example init_of_rateless_process :
  __init__ Sample.load Sample.parser "S_NH4 -> S_O2" (Some "S_O2") None
      (Some Sample.cmps) ["COD"; "N"] (Some ["k"])
    = Raise (AttributeError "strip") ∧
  __init__ Sample.load Sample.parser "S_NH4 -> S_O2" (Some "S_O2") (Some "")
      (Some Sample.cmps) ["COD"; "N"] (Some ["k"])
    = Raise SyntaxError.
Proof. split; reflexivity. Qed.

(** * Further properties of the methods *)

(** ** The order on names *)

Lemma ascii_compare_lt_trans (a b c : Ascii.ascii) :
  Ascii.compare a b = Lt → Ascii.compare b c = Lt → Ascii.compare a c = Lt.
Proof.
  unfold Ascii.compare. rewrite !N.compare_lt_iff. apply N.lt_trans.
Qed.

Lemma string_compare_lt_trans (s1 s2 s3 : string) :
  String.compare s1 s2 = Lt → String.compare s2 s3 = Lt →
  String.compare s1 s3 = Lt.
Proof.
  revert s2 s3. induction s1 as [|c1 s1 IH]; intros [|c2 s2] [|c3 s3];
    cbn; try done.
  destruct (Ascii.compare c1 c2) eqn:H12; try done;
    destruct (Ascii.compare c2 c3) eqn:H23; try done.
  - apply Ascii.compare_eq_iff in H12 as ->, H23 as ->.
    rewrite (proj2 (N.compare_eq_iff _ _) eq_refl : Ascii.compare c3 c3 = Eq).
    apply IH.
  - apply Ascii.compare_eq_iff in H12 as ->. by rewrite H23.
  - apply Ascii.compare_eq_iff in H23 as <-. by rewrite H12.
  - by rewrite (ascii_compare_lt_trans c1 c2 c3).
Qed.

#[global] Instance str_le_total : Total str_le.
Proof. intros a b. apply String.leb_total. Qed.

#[global] Instance str_le_antisymm : AntiSymm (=) str_le.
Proof. intros a b. apply String.leb_antisym. Qed.

#[global] Instance str_le_trans : Transitive str_le.
Proof.
  intros a b c. unfold str_le, String.leb.
  destruct (String.compare a b) eqn:Hab; [| |done].
  - apply String.compare_eq_iff in Hab as ->. done.
  - destruct (String.compare b c) eqn:Hbc; [| |done].
    + apply String.compare_eq_iff in Hbc as <-. by rewrite Hab.
    + by rewrite (string_compare_lt_trans a b c).
Qed.



(** ** More arithmetic of the scalars *)

Lemma Qc_negative_abs (c : Qc) : Qc_negative (Qcabs c) = false.
Proof.
  unfold Qc_negative. apply bool_decide_eq_false.
  apply Qcle_not_lt, Qcabs_nonneg.
Qed.


Lemma Qcabs_nonzero (c : Qc) : c ≠ 0%Qc → Qcabs c ≠ 0%Qc.
Proof. intros Hc H. by apply Hc, Qcabs_null. Qed.




Lemma fneg_ne_zero (v : float64) : f_ne_zero (fneg v) = f_ne_zero v.
Proof.
  destruct v as [q|b|]; [|done..]. cbn. apply bool_decide_ext. split.
  - intros Hq ->. apply Hq. by apply Qc_is_canon.
  - intros Hq H0. apply Hq. rewrite <- (Qcopp_involutive q), H0.
    by apply Qc_is_canon.
Qed.

Lemma fabs_fneg (v : float64) : fabs (fneg v) = fabs v.
Proof. destruct v as [q|b|]; cbn; [|done..]. by rewrite Qcabs_opp. Qed.

Lemma fneg_fdiv_abs (d : Qc) (v : float64) :
  d ≠ 0%Qc → fdiv (fneg v) (Fin (Qcabs d)) = fneg (fdiv v (Fin (Qcabs d))).
Proof.
  intros Hd. pose proof (Qcabs_nonzero d Hd) as Hd'.
  destruct v as [q|b|]; unfold fdiv, fneg.
  - rewrite !decide_False by done. f_equal. by field.
  - by rewrite Qc_negative_abs, !xorb_false_r.
  - done.
Qed.

(** ** The index of the catalog *)

Lemma index_of_Ok (cmps : Components) s i :
  index_of cmps s = Ok i → IDs cmps !! i = Some s.
Proof.
  unfold index_of, _index. destruct (dict_zip _ _ !! s) as [i'|] eqn:Hl; [|done].
  intros [= ->]. apply dict_zip_lookup_Some in Hl as (j & Hj & Hseq).
  apply lookup_seq in Hseq as [-> _]. done.
Qed.

Lemma index_of_unknown (cmps : Components) s :
  s ∉ IDs cmps → index_of cmps s = Raise (KeyError s).
Proof.
  intros Hs. unfold index_of.
  destruct (_index cmps !! s) as [i|] eqn:Hl; [|done].
  destruct Hs. apply list_elem_of_lookup. exists i.
  apply index_of_Ok. unfold index_of. by rewrite Hl.
Qed.


Lemma dict_zip_fmap {A B} (f : A → B) (ks : list string) (vs : list A) :
  dict_zip ks (f <$> vs) = f <$> dict_zip ks vs.
Proof.
  unfold dict_zip, update_all.
  rewrite <- (fmap_empty f) at 1. generalize (∅ : gmap string A).
  revert vs. induction ks as [|k ks IH]; intros vs d; [done|].
  destruct vs as [|v vs]; [done|]. cbn.
  rewrite <- fmap_insert. apply IH.
Qed.

(** ** Reassignment and reversal, seen through the attributes *)

Section more_properties.
Context `{sympy : Sympy}.
Implicit Types (self : Process) (s t : string) (a : list float64).

Ltac run :=
  unfold ref_component_setter, _normalize_stoichiometry, _normalize_rate_eq,
    reverse, append_parameters, conserved_for_setter, set_parameters,
    assign_stoichiometry, assign_ref_component, assign_rate_equation,
    assign_parameters, rate_equation, read, getitem, mbind, method_bind,
    mret, method_ret;
  cbn [fst snd _stoichiometry _components _ref_component _conserved_for
       _parameters _rate_equation truthy].

(** The entries of the view of a numeric vector: the non-zero numbers,
    each under the name at its position. *)
Lemma numeric_view_lookup self a k y :
  _stoichiometry self = stoich_ndarray a →
  stoichiometry self !! k = Some y ↔
    ∃ x, dict_zip (IDs (_components self)) a !! k = Some x
         ∧ f_ne_zero x = true ∧ y = CNum x.
Proof.
  intros Ha. unfold stoichiometry. rewrite Ha. cbn [coeffs].
  rewrite dict_zip_fmap, map_lookup_filter_Some, lookup_fmap_Some. cbn. split.
  - intros [(x & <- & Hx) Hnz]. by exists x.
  - intros (x & Hx & Hnz & ->). split; [by exists x|done].
Qed.

(** The view of a numeric vector after every number went through [f],
    when [f] keeps zero and only zero at zero. *)
Lemma numeric_view_fmap self self' a (f : float64 → float64) k y :
  (∀ x, f_ne_zero (f x) = f_ne_zero x) →
  _stoichiometry self = stoich_ndarray a →
  _stoichiometry self' = stoich_ndarray (f <$> a) →
  _components self' = _components self →
  stoichiometry self' !! k = Some y ↔
    ∃ x, stoichiometry self !! k = Some (CNum x) ∧ y = CNum (f x).
Proof.
  intros Hf Ha Ha' Hc.
  rewrite (numeric_view_lookup self' (f <$> a)) by done.
  rewrite Hc, dict_zip_fmap. split.
  - intros (x' & Hx' & Hnz & ->).
    apply lookup_fmap_Some in Hx' as (x & <- & Hx). exists x. split; [|done].
    apply (numeric_view_lookup self a); [done|]. exists x.
    by rewrite <- Hf.
  - intros (x & Hx & ->).
    apply (numeric_view_lookup self a) in Hx as (x' & Hx' & Hnz & [= <-]);
      [|done].
    exists (f x). rewrite lookup_fmap, Hx', Hf. done.
Qed.

Lemma reverse_stoichiometry self :
  _stoichiometry (reverse self).2 =
    match _stoichiometry self with
    | stoich_ndarray a => stoich_ndarray (fneg <$> a)
    | stoich_list l => stoich_list (expr_neg <$> l)
    end
  ∧ _components (reverse self).2 = _components self
  ∧ _ref_component (reverse self).2 = _ref_component self.
Proof.
  run. by destruct (_stoichiometry self), (_rate_equation self).
Qed.

(** X1.  Assigning [ref_component] a non-empty name that is not a species
    of the catalog raises [KeyError], and by then the reference name has
    been overwritten with the unknown name; the stoichiometry vector, the
    rate equation and the other attributes are as before. *)
Theorem ref_component_setter_unknown_species self s :
  s ≠ "" → s ∉ IDs (_components self) →
  ref_component_setter (Some s) self =
    (Raise (KeyError s),
     {| _stoichiometry := _stoichiometry self;
        _components := _components self;
        _ref_component := Some s;
        _conserved_for := _conserved_for self;
        _parameters := _parameters self;
        _rate_equation := _rate_equation self |}).
Proof.
  intros Hs Hin. run. rewrite bool_decide_eq_true_2 by done.
  by rewrite (index_of_unknown _ s Hin).
Qed.



(** X4.  After [reverse], whether or not it could negate the rate, the
    view [stoichiometry] of a numeric vector has an entry for exactly the
    species it had, each value negated. *)
Theorem reverse_view self a :
  _stoichiometry self = stoich_ndarray a →
  ∀ k y,
    stoichiometry (reverse self).2 !! k = Some y ↔
      ∃ x, stoichiometry self !! k = Some (CNum x) ∧ y = CNum (fneg x).
Proof.
  intros Ha k y. destruct (reverse_stoichiometry self) as (Hv & Hc & _).
  rewrite Ha in Hv.
  by apply (numeric_view_fmap self _ a fneg k y fneg_ne_zero).
Qed.

(** X5.  [reverse] keeps a numeric process normalized: the species that
    served as the reference still does, its coefficient having changed
    sign only. *)
Theorem reverse_keeps_reference self s a :
  _stoichiometry self = stoich_ndarray a →
  serves_as_reference self s →
  serves_as_reference (reverse self).2 s.
Proof.
  intros Ha (Href & i & Hi & Hmag).
  destruct (reverse_stoichiometry self) as (Hv & Hc & Hr).
  rewrite Ha in Hv, Hmag. destruct Hmag as (c & Hc' & Hone).
  split; [by rewrite Hr|]. exists i. rewrite Hc, Hv. split; [done|].
  exists (fneg c). by rewrite list_lookup_fmap, Hc', fabs_fneg.
Qed.

End more_properties.

(** ** What no sequence of calls changes *)

Section invariants.
Context `{sympy : Sympy}.
Implicit Types (self : Process) (c : call) (calls : list call).

Ltac run :=
  unfold perform, ref_component_setter, _normalize_stoichiometry,
    _normalize_rate_eq, reverse, append_parameters, conserved_for_setter,
    set_parameters, assign_stoichiometry, assign_ref_component,
    assign_rate_equation, assign_parameters, rate_equation, read, getitem,
    mbind, method_bind, mret, method_ret;
  cbn [fst snd _stoichiometry _components _ref_component _conserved_for
       _parameters _rate_equation truthy].

Lemma same_shape_refl (v : stoich) : same_shape v v.
Proof. by destruct v. Qed.

Lemma same_shape_trans (v1 v2 v3 : stoich) :
  same_shape v1 v2 → same_shape v2 v3 → same_shape v1 v3.
Proof. destruct v1, v2, v3; cbn; try done; congruence. Qed.



(** One call, returning or raising: the catalog and the shape of the
    vector stay. *)
Lemma perform_shape c self :
  _components (perform c self).2 = _components self ∧
  same_shape (_stoichiometry self) (_stoichiometry (perform c self).2).
Proof.
  destruct c as [|[s|]| | |]; run;
    repeat case_match; simplify_eq/=;
    (split; [done|]); rewrite ?length_fmap; try done;
    apply same_shape_refl.
Qed.


(** X6.  Whatever methods are called, in whatever order and whether they
    return or raise, the process keeps its catalog and the kind (numeric
    array or symbolic list) and the length of its stoichiometry vector. *)
Theorem calls_keep_shape calls self :
  _components (after calls self) = _components self ∧
  same_shape (_stoichiometry self) (_stoichiometry (after calls self)).
Proof.
  revert self. induction calls as [|c calls IH]; intros self.
  - split; [done|apply same_shape_refl].
  - change (after (c :: calls) self) with (after calls (perform c self).2).
    destruct (IH (perform c self).2) as [Hc Hs].
    destruct (perform_shape c self) as [Hc' Hs'].
    split; [congruence|]. by eapply same_shape_trans.
Qed.


End invariants.

(** ** Parameters and construction *)

Section parameters_and_construction.
Context `{sympy : Sympy}.
Implicit Types (self : Process) (names : list string).

Ltac run :=
  unfold append_parameters, _parse_rate_eq, assign_parameters,
    assign_rate_equation, read, mbind, method_bind, mret, method_ret;
  cbn [fst snd _stoichiometry _components _ref_component _conserved_for
       _parameters _rate_equation].





(** X10.  Construction with [parameters] left at its default [None]
    raises [TypeError] as soon as the catalog has loaded, before the
    reaction is parsed. *)
Theorem init_default_parameters_raises
    (load : option Components → result Components)
    (parser : string → option string → Components → list string →
              gmap string expr → result stoich)
    reaction ref rate components conserved cmps :
  load components = Ok cmps →
  __init__ load parser reaction ref rate components conserved None
    = Raise TypeError.
Proof. intros Hload. unfold __init__. by rewrite Hload. Qed.


End parameters_and_construction.

(** ** Reversal against reassignment; the loops of the conservation check *)

Section loops.
Context `{sympy : Sympy}.
Implicit Types (self : Process) (s : string) (a : list float64).

(** X12.  [reverse] and a reassignment of the reference commute on the
    stoichiometry vector of a numeric process: either order leaves every
    coefficient negated and divided by the magnitude of the reference
    coefficient. *)
Theorem reverse_commutes_with_reassignment self s i a c r :
  s ≠ "" →
  index_of (_components self) s = Ok i →
  _rate_equation self = Some r →
  _stoichiometry self = stoich_ndarray a →
  a !! i = Some (Fin c) → c ≠ 0%Qc →
  _stoichiometry ((reverse ≫= λ _, ref_component_setter (Some s)) self).2
    = _stoichiometry ((ref_component_setter (Some s) ≫= λ _, reverse) self).2
  ∧ _stoichiometry ((ref_component_setter (Some s) ≫= λ _, reverse) self).2
    = stoich_ndarray ((λ v, fneg (fdiv v (Fin (Qcabs c)))) <$> a).
Proof.
  intros Hs Hi Hr Ha Hc Hc0.
  unfold mbind, method_bind.
  rewrite (reverse_once self r Hr), Ha.
  rewrite (setter_ndarray _ s i (fneg <$> a) (fneg (Fin c)) (expr_neg r));
    [|done..| |done].
  - rewrite (setter_ndarray self s i a (Fin c) r) by done.
    rewrite (reverse_once _ (expr_mul r (Float (fdiv (Fin c) (fabs (Fin c))))))
      by done.
    cbn [snd reassigned _stoichiometry]. rewrite fabs_fneg. cbn [fabs].
    rewrite <- !list_fmap_compose. split; [|done].
    f_equal. apply list_fmap_ext. intros _ v _. cbn.
    by apply fneg_fdiv_abs.
  - by rewrite list_lookup_fmap, Hc.
Qed.

Lemma getattr_i_Some (cmps : Components) q row :
  conversion cmps !! q = Some row → getattr_i cmps q = Ok row.
Proof. intros Hq. unfold getattr_i. by rewrite Hq. Qed.

Lemma stack_loop (cmps : Components) n acc rest rows :
  Forall (λ r, length r = n) acc →
  Forall2 (λ q row, conversion cmps !! q = Some row ∧ length row = n) rest rows →
  foldlM (λ arr q, row ← getattr_i cmps q; vstack arr row) (A2 acc) rest
    = Ok (A2 (acc ++ rows)).
Proof.
  intros Hacc Hrows. revert acc Hacc.
  induction Hrows as [|q row rest rows [Hq Hlen] _ IH]; intros acc Hacc.
  - by rewrite app_nil_r.
  - cbn. rewrite (getattr_i_Some cmps q row Hq). cbn.
    rewrite bool_decide_eq_true_2 by (by rewrite Hlen). cbn.
    rewrite IH, <- app_assoc; [done|].
    apply Forall_app. split; [done|]. by apply Forall_singleton.
Qed.

(** X13.  Lines 45-50 of [get_conversion_factors], on quantities that
    all have a row of factors of one length in the catalog: two or more
    quantities give the 2-d array of their rows in the order of the
    quantities, a single quantity gives its row as a 1-d array, not as a
    one-row 2-d array. *)
Theorem stack_factors_shape (cmps : Components) first rest row0 rows n :
  conversion cmps !! first = Some row0 → length row0 = n →
  Forall2 (λ q row, conversion cmps !! q = Some row ∧ length row = n) rest rows →
  stack_factors cmps first rest false =
    Ok (FArray (match rows with [] => A1 row0 | _ => A2 (row0 :: rows) end)).
Proof.
  intros Hfirst Hlen Hrows. unfold stack_factors.
  rewrite (getattr_i_Some cmps first row0 Hfirst). cbn.
  destruct Hrows as [|q row rest rows [Hq Hlen'] Hrows]; [done|].
  cbn. rewrite (getattr_i_Some cmps q row Hq). cbn.
  rewrite decide_True by congruence. cbn.
  rewrite (stack_loop cmps n [row0; row] rest rows); [done| |done].
  by repeat constructor.
Qed.

Lemma unconserved_loop (materials : list string) (tol : Qc) (d1 d2 : list float64) :
  (length (d1 ++ d2) ≤ length materials)%nat →
  unconserved_from materials (length d1) (d1 ++ d2) (isclose_zero tol <$> d2)
    = Ok (filter (λ p, isclose_zero tol p.2 = false)
            (zip (drop (length d1) materials) d2)).
Proof.
  revert d1. induction d2 as [|x d2 IH]; intros d1 Hlen.
  - by rewrite zip_with_nil_r.
  - rewrite length_app in Hlen. cbn in Hlen.
    destruct (lookup_lt_is_Some_2 materials (length d1)) as [m Hm]; [lia|].
    rewrite (drop_S _ _ _ Hm). cbn [fmap list_fmap unconserved_from zip zip_with].
    assert (Hl : length (d1 ++ [x]) = S (length d1)).
    { rewrite length_app. cbn. lia. }
    specialize (IH (d1 ++ [x])%list).
    rewrite <- app_assoc, Hl in IH. cbn in IH.
    assert (Hlen' : (length (d1 ++ x :: d2) ≤ length materials)%nat).
    { rewrite length_app. cbn. lia. }
    specialize (IH Hlen').
    rewrite filter_cons. cbn [snd].
    destruct (isclose_zero tol x) eqn:Hx.
    + rewrite decide_False by done. apply IH.
    + rewrite decide_True by done. unfold getitem. rewrite Hm. cbn.
      rewrite lookup_app_r, Nat.sub_diag by done. cbn.
      by rewrite IH.
Qed.

(** X14.  The comprehension of line 63 of [check_conservation], on a
    vector of products no longer than the tuple of quantities: it lists the
    pair (quantity, product) of every position whose product is further
    than the tolerance from zero, in order, and of no other position. *)
Theorem unconserved_lists_every_violation (materials : list string) (tol : Qc)
    (ic_dot_v : list float64) :
  (length ic_dot_v ≤ length materials)%nat →
  unconserved_from materials 0 ic_dot_v (isclose_zero tol <$> ic_dot_v)
    = Ok (filter (λ p, isclose_zero tol p.2 = false) (zip materials ic_dot_v)).
Proof. intros Hlen. by apply (unconserved_loop materials tol []). Qed.

End loops.

(** ** The further properties on the sample processes *)

(** S_H2O is not a species of the sample catalog. *)
Lemma ref_component_setter_unknown_species_witness :
  ref_component_setter (Some "S_H2O") Sample.numeric =
    (Raise (KeyError "S_H2O"),
     {| _stoichiometry := _stoichiometry Sample.numeric;
        _components := _components Sample.numeric;
        _ref_component := Some "S_H2O";
        _conserved_for := _conserved_for Sample.numeric;
        _parameters := _parameters Sample.numeric;
        _rate_equation := _rate_equation Sample.numeric |}).
Proof.
  apply (ref_component_setter_unknown_species Sample.numeric "S_H2O").
  - discriminate.
  - apply (bool_decide_unpack _). vm_compute. reflexivity.
Defined.



(** The entry of S_NH4 in the view of [numeric] reversed. *)
Lemma reverse_view_witness :
  stoichiometry (reverse Sample.numeric).2 !! "S_NH4"
      = Some (CNum (fneg (Fin (qc (-2) 1)))) ↔
    ∃ x, stoichiometry Sample.numeric !! "S_NH4" = Some (CNum x)
         ∧ CNum (fneg (Fin (qc (-2) 1))) = CNum (fneg x).
Proof.
  apply (reverse_view Sample.numeric [Fin (qc 1 1); Fin (qc (-2) 1)]).
  reflexivity.
Defined.

(** S_NH4 serves as the reference of [normalized], reversed or not. *)
Lemma reverse_keeps_reference_witness :
  serves_as_reference (reverse Sample.normalized).2 "S_NH4".
Proof.
  apply (reverse_keeps_reference Sample.normalized "S_NH4"
           [Fin (qc 1 2); Fin (qc (-1) 1)]); [reflexivity|].
  split; [reflexivity|]. exists 1. split; [vm_compute; reflexivity|].
  exists (Fin (qc (-1) 1)). split; [reflexivity|].
  cbn. f_equal. apply Qc_is_canon. reflexivity.
Defined.


(** The sample construction with [parameters] left out. *)
Lemma init_default_parameters_raises_witness :
  __init__ Sample.load Sample.parser "S_NH4 -> S_O2" (Some "S_O2") (Some "k")
      (Some Sample.cmps) ["COD"; "N"] None
    = Raise TypeError.
Proof.
  apply (init_default_parameters_raises (sympy:=Monomial.sympy)
           Sample.load Sample.parser
           "S_NH4 -> S_O2" (Some "S_O2") (Some "k") (Some Sample.cmps)
           ["COD"; "N"] Sample.cmps).
  reflexivity.
Defined.



(** Reversing [numeric] and making S_NH4 its reference, in both orders. *)
Lemma reverse_commutes_with_reassignment_witness :
  _stoichiometry
      ((reverse ≫= λ _, ref_component_setter (Some "S_NH4")) Sample.numeric).2
    = _stoichiometry
        ((ref_component_setter (Some "S_NH4") ≫= λ _, reverse) Sample.numeric).2
  ∧ _stoichiometry
      ((ref_component_setter (Some "S_NH4") ≫= λ _, reverse) Sample.numeric).2
    = stoich_ndarray ((λ v, fneg (fdiv v (Fin (Qcabs (qc (-2) 1)))))
                        <$> [Fin (qc 1 1); Fin (qc (-2) 1)]).
Proof.
  apply (reverse_commutes_with_reassignment Sample.numeric "S_NH4" 1
           _ (qc (-2) 1) Sample.k); try reflexivity; discriminate.
Defined.

(** The factors of COD and N in the sample catalog, stacked. *)
Lemma stack_factors_shape_witness :
  stack_factors Sample.cmps "COD" ["N"] false =
    Ok (FArray (A2 [[Fin (qc (-1) 1); Fin (qc 0 1)];
                    [Fin (qc 0 1); Fin (qc 1 1)]])).
Proof.
  apply (stack_factors_shape Sample.cmps "COD" ["N"]
           [Fin (qc (-1) 1); Fin (qc 0 1)] [[Fin (qc 0 1); Fin (qc 1 1)]] 2).
  - reflexivity.
  - reflexivity.
  - repeat constructor.
Defined.

(** Products -1 for COD and 0 for N: only COD is listed. *)
Lemma unconserved_lists_every_violation_witness :
  unconserved_from ["COD"; "N"] 0 [Fin (qc (-1) 1); Fin (qc 0 1)]
      (isclose_zero (qc 1 100000000) <$> [Fin (qc (-1) 1); Fin (qc 0 1)])
    = Ok (filter (λ p, isclose_zero (qc 1 100000000) p.2 = false)
            (zip ["COD"; "N"] [Fin (qc (-1) 1); Fin (qc 0 1)])).
Proof.
  apply (unconserved_lists_every_violation ["COD"; "N"]). cbn. lia.
Defined.
